(** * DBX Redis string SDK (sdks/redis-py): transport and string facade

    A shallow embedding of [client.py] (class [DbxClient]) and
    [clients/string.py] (class [StringClient]).

    The HTTP library ([requests]) is the outside world of the program.  It
    is modelled the way the unit tests mock it: a call of
    [requests.request] either raises a [RequestException] or hands back a
    response object, and a response object is what its three members used by
    the code answer ([raise_for_status()], [content], [json()]). *)

From Stdlib Require Import ZArith String Ascii List.
From Stdlib Require Import Floats.SpecFloat.
From stdpp Require Import base option gmap strings list fin_maps.

Set Warnings "-register-all".
Local Open Scope string_scope.

(** ** Python values *)

(** The values [response.json()] can return and [json=...] can carry:
    [None], booleans, integers (unbounded), floats (IEEE, as [spec_float]),
    strings, lists and dicts with string keys. *)
Inductive pyval : Type :=
| PNone
| PBool (b : bool)
| PInt (n : Z)
| PFloat (f : spec_float)
| PStr (s : string)
| PList (l : list pyval)
| PDict (d : gmap string pyval).

(** Python's truth value testing, [bool(v)]. *)
Definition truthy (v : pyval) : bool :=
  match v with
  | PNone => false
  | PBool b => b
  | PInt n => negb (n =? 0)%Z
  | PFloat f => match f with S754_zero _ => false | _ => true end
  | PStr s => negb (String.length s =? 0)%nat
  | PList l => negb (length l =? 0)%nat
  | PDict d => negb (size d =? 0)%nat
  end.

(** [type(v).__name__], as it appears in the text of an [AttributeError]. *)
Definition type_name (v : pyval) : string :=
  match v with
  | PNone => "NoneType"
  | PBool _ => "bool"
  | PInt _ => "int"
  | PFloat _ => "float"
  | PStr _ => "str"
  | PList _ => "list"
  | PDict _ => "dict"
  end.

Definition is_dict (v : pyval) : bool :=
  match v with PDict _ => true | _ => false end.

(** ** The [requests] library as the code sees it *)

(** An exception of class [requests.RequestException] or of one of its
    subclasses ([HTTPError], [ConnectionError], [Timeout], ...): the name of
    its class and [str(e)]. *)
Record RequestException : Type := {
  exc_class : string;
  exc_str : string
}.

(** A response object: what [raise_for_status()] does ([None]: it returns;
    [Some e]: it raises [e], the server answered with an error status), the
    body bytes [content], and what [json()] does (it returns the parsed
    body, or raises the library's [JSONDecodeError], itself a
    [RequestException]). *)
Record Response : Type := {
  raise_for_status : option RequestException;
  content : string;
  json : RequestException + pyval
}.

(** The arguments of one call
    [requests.request(method, url, timeout=..., headers=..., **kwargs)];
    [req_json] is the [json=] keyword, absent when [kwargs] is empty. *)
Record Request : Type := {
  req_method : string;
  req_url : string;
  req_timeout : option Z;
  req_headers : gmap string string;
  req_json : option pyval
}.

(** The exceptions that leave the client: the [RuntimeError] raised by
    [_request] ("Request failed: ..." chained [from] its cause; this is the
    error kind the specification calls RequestError), and the
    [AttributeError] of a [.get] on a value that has no such method. *)
Inductive PyExc : Type :=
| RuntimeError (msg : string) (cause : RequestException)
| AttributeError (msg : string).

(** [len(b) != 0] for a [str] or [bytes] object. *)
Definition nonempty (s : string) : bool := negb (String.length s =? 0)%nat.

(** [str.rstrip(chars)]: drop the longest suffix made of characters of
    [chars].  Strings are byte strings here; "/" is one byte in UTF-8 and
    occurs in no multi-byte sequence, so stripping it bytewise is stripping
    it characterwise. *)
Fixpoint char_in (c : ascii) (chars : string) : bool :=
  match chars with
  | EmptyString => false
  | String c' rest => if Ascii.eqb c c' then true else char_in c rest
  end.

Fixpoint rstrip (chars s : string) : string :=
  match s with
  | EmptyString => EmptyString
  | String c rest =>
      match rstrip chars rest with
      | EmptyString => if char_in c chars then EmptyString else String c EmptyString
      | String _ _ as r => String c r
      end
  end.

(** ** class DbxClient *)

Record DbxClient : Type := {
  base_url : string;
  timeout : option Z;
  headers : gmap string string
}.

(** [DbxClient.__init__]; [headers or {}] replaces [None] and the empty
    dict by a fresh empty dict. *)
Definition DbxClient_init (base_url0 : string) (timeout0 : option Z)
    (headers0 : option (gmap string string)) : DbxClient :=
  {| base_url := rstrip "/" base_url0;
     timeout := timeout0;
     headers := match headers0 with
                | Some h => if (size h =? 0)%nat then ∅ else h
                | None => ∅
                end |}.

(** [class StringClient]: [__init__] stores the client. *)
Record StringClient : Type := { client : DbxClient }.

Section Transport.

(** The network and the server behind it: a state [W] and the effect of
    one [requests.request] call on it. *)
Context {W : Type}.
Variable requests_request : Request -> W -> (RequestException + Response) * W.

(** A run: the state of the outside world and the calls made so far. *)
Record Session : Type := {
  world : W;
  sent : list Request
}.

(** Computations that may raise an [E] and act on the session. *)
Definition M (E A : Type) : Type := Session -> (E + A) * Session.

Definition ret {E A} (a : A) : M E A := fun s => (inr a, s).
Definition raise {E A} (e : E) : M E A := fun s => (inl e, s).
Definition bind {E A B} (m : M E A) (k : A -> M E B) : M E B :=
  fun s => match m s with
           | (inr a, s') => k a s'
           | (inl e, s') => (inl e, s')
           end.
(** [try: m except E1 as e: h e] *)
Definition try_except {E1 E2 A} (m : M E1 A) (h : E1 -> M E2 A) : M E2 A :=
  fun s => match m s with
           | (inr a, s') => (inr a, s')
           | (inl e, s') => h e s'
           end.

(** stdpp's monad notation: [x ← m; k] and [m;; k]. *)
#[global] Instance M_ret {E} : MRet (M E) := fun A => @ret E A.
#[global] Instance M_bind {E} : MBind (M E) := fun A B k m => bind m k.

(** One call of [requests.request]: it is recorded and handed to the
    world. *)
Definition call_requests (req : Request) : M RequestException Response :=
  fun s => let (r, w') := requests_request req (world s) in
           (r, {| world := w'; sent := sent s ++ [req] |}).

Definition call_raise_for_status (r : Response) : M RequestException unit :=
  match raise_for_status r with
  | Some e => raise e
  | None => ret tt
  end.

Definition call_json (r : Response) : M RequestException pyval :=
  match json r with
  | inl e => raise e
  | inr v => ret v
  end.

(** [DbxClient._request] *)
Definition _request (self : DbxClient) (method path : string)
    (kwargs : option pyval) : M PyExc pyval :=
  let url := base_url self ++ path in
  try_except
    (response ← call_requests {| req_method := method; req_url := url;
                                  req_timeout := timeout self;
                                  req_headers := headers self;
                                  req_json := kwargs |};
     call_raise_for_status response;;
     if nonempty (content response) then call_json response
     else ret PNone)
    (fun e => raise (RuntimeError ("Request failed: " ++ exc_str e) e)).

(** [v.get(key, dflt)]: a dict method; any other value has no attribute
    [get]. *)
Definition py_get (v : pyval) (key : string) (dflt : pyval) : M PyExc pyval :=
  match v with
  | PDict d => ret (default dflt (d !! key))
  | _ => raise (AttributeError
                  ("'" ++ type_name v ++ "' object has no attribute 'get'"))
  end.

(** *** class StringClient *)

Definition get (self : StringClient) (key : string) : M PyExc pyval :=
  response ← _request (client self) "GET" ("/redis/string/" ++ key) None;
  if truthy response then py_get response "value" PNone else ret PNone.

Definition set (self : StringClient) (key value : string) (ttl : option Z)
    : M PyExc unit :=
  let data : gmap string pyval := {[ "value" := PStr value ]} in
  let data := match ttl with
              | Some t => <[ "ttl" := PInt t ]> data
              | None => data
              end in
  _request (client self) "POST" ("/redis/string/" ++ key) (Some (PDict data));;
  ret tt.

Definition delete (self : StringClient) (key : string) : M PyExc pyval :=
  response ← _request (client self) "DELETE" ("/redis/string/" ++ key) None;
  if truthy response then py_get response "deleted" (PBool false)
  else ret (PBool false).

Definition info (self : StringClient) (key : string) : M PyExc pyval :=
  response ← _request (client self) "GET"
                ("/redis/string/" ++ key ++ "/info") None;
  if truthy response then ret response else ret PNone.

Definition batch_get (self : StringClient) (keys : list string) : M PyExc pyval :=
  response ← _request (client self) "POST" "/redis/string/batch_get"
                (Some (PDict {[ "keys" := PList (PStr <$> keys) ]}));
  if truthy response then py_get response "values" (PList [])
  else ret (PList []).

Definition batch_set (self : StringClient)
    (operations : list (gmap string pyval)) : M PyExc unit :=
  _request (client self) "POST" "/redis/string/batch_set"
    (Some (PDict {[ "operations" := PList (PDict <$> operations) ]}));;
  ret tt.

End Transport.

Arguments Session : clear implicits.
Arguments M : clear implicits.

(** ** The six operations as one type *)

Inductive Op : Type :=
| OpGet (key : string)
| OpSet (key value : string) (ttl : option Z)
| OpDelete (key : string)
| OpInfo (key : string)
| OpBatchGet (keys : list string)
| OpBatchSet (operations : list (gmap string pyval)).

(** Calling an operation; [set] and [batch_set] return [None]. *)
Definition call {W} (net : Request -> W -> (RequestException + Response) * W)
    (self : StringClient) (op : Op) : M W PyExc pyval :=
  match op with
  | OpGet key => get net self key
  | OpSet key value ttl => set net self key value ttl;; mret PNone
  | OpDelete key => delete net self key
  | OpInfo key => info net self key
  | OpBatchGet keys => batch_get net self keys
  | OpBatchSet operations => batch_set net self operations;; mret PNone
  end.

(** The arguments an operation hands to [_request]: method, path and the
    [json=] keyword.  [op_request_sent] below checks them against the code. *)
Definition op_method (op : Op) : string :=
  match op with
  | OpGet _ | OpInfo _ => "GET"
  | OpDelete _ => "DELETE"
  | OpSet _ _ _ | OpBatchGet _ | OpBatchSet _ => "POST"
  end.

Definition op_path (op : Op) : string :=
  match op with
  | OpGet key | OpSet key _ _ | OpDelete key => "/redis/string/" ++ key
  | OpInfo key => "/redis/string/" ++ key ++ "/info"
  | OpBatchGet _ => "/redis/string/batch_get"
  | OpBatchSet _ => "/redis/string/batch_set"
  end.

Definition op_json (op : Op) : option pyval :=
  match op with
  | OpGet _ | OpDelete _ | OpInfo _ => None
  | OpSet _ value None => Some (PDict {[ "value" := PStr value ]})
  | OpSet _ value (Some t) =>
      Some (PDict (<[ "ttl" := PInt t ]> {[ "value" := PStr value ]}))
  | OpBatchGet keys => Some (PDict {[ "keys" := PList (PStr <$> keys) ]})
  | OpBatchSet operations =>
      Some (PDict {[ "operations" := PList (PDict <$> operations) ]})
  end.

(** The call [_request] makes. *)
Definition the_call (self : DbxClient) (method path : string)
    (kwargs : option pyval) : Request :=
  {| req_method := method; req_url := base_url self ++ path;
     req_timeout := timeout self; req_headers := headers self;
     req_json := kwargs |}.

Definition op_request (self : StringClient) (op : Op) : Request :=
  the_call (client self) (op_method op) (op_path op) (op_json op).

(** The transport's answer, in the state of [s], to the call of [op]. *)
Definition reply {W} (net : Request -> W -> (RequestException + Response) * W)
    (self : StringClient) (op : Op) (s : Session W) : RequestException + Response :=
  (net (op_request self op) (world s)).1.

(** What [_request] makes of the transport's answer. *)
Definition outcome (a : RequestException + Response) : PyExc + pyval :=
  match a with
  | inl e => inl (RuntimeError ("Request failed: " ++ exc_str e) e)
  | inr r =>
      match raise_for_status r with
      | Some e => inl (RuntimeError ("Request failed: " ++ exc_str e) e)
      | None =>
          if nonempty (content r) then
            match json r with
            | inl e => inl (RuntimeError ("Request failed: " ++ exc_str e) e)
            | inr v => inr v
            end
          else inr PNone
      end
  end.

(** ** Kinds of answers *)

(** The transport failed with cause [e]: the network call raised [e], or
    the server answered and [raise_for_status()] raised [e]. *)
Inductive transport_failure : RequestException + Response -> RequestException -> Prop :=
| network_failure e : transport_failure (inl e) e
| error_status r e : raise_for_status r = Some e -> transport_failure (inr r) e.

(** A success status with an empty body. *)
Definition empty_success (r : Response) : Prop :=
  raise_for_status r = None /\ content r = "".

(** A success status with a non-empty body that parses to [v]. *)
Definition success_body (r : Response) (v : pyval) : Prop :=
  raise_for_status r = None /\ nonempty (content r) = true /\ json r = inr v.

(** A POST is accepted: success status, and a body that parses if there is
    one. *)
Definition accepted (r : Response) : Prop :=
  raise_for_status r = None
  /\ (nonempty (content r) = true -> exists v, json r = inr v).

(** A transport whose server stores the value posted on a URL and serves it
    back as the [value] field: a POST on [u] carrying a dict with
    [value = v] is accepted, and a GET on [u] right after it succeeds with a
    dict whose [value] field is [v]. *)
Definition stores_and_serves {W}
    (net : Request -> W -> (RequestException + Response) * W) : Prop :=
  forall u t h d v w,
    d !! "value" = Some v ->
    exists r w',
      net {| req_method := "POST"; req_url := u; req_timeout := t;
             req_headers := h; req_json := Some (PDict d) |} w = (inr r, w')
      /\ accepted r
      /\ exists r' d' w'',
           net {| req_method := "GET"; req_url := u; req_timeout := t;
                  req_headers := h; req_json := None |} w' = (inr r', w'')
           /\ success_body r' (PDict d')
           /\ d' !! "value" = Some v.

(** The body could not be decoded: success status, a non-empty body, and
    [json()] raised [e]. *)
Definition decode_failure (a : RequestException + Response)
    (e : RequestException) : Prop :=
  exists r, a = inr r /\ raise_for_status r = None
            /\ nonempty (content r) = true /\ json r = inl e.

(** Everything the [except] clause of [_request] catches. *)
Definition request_failure (a : RequestException + Response)
    (e : RequestException) : Prop :=
  transport_failure a e \/ decode_failure a e.

(** The operations that call [.get] on the answer. *)
Definition extracts_field (op : Op) : bool :=
  match op with
  | OpGet _ | OpDelete _ | OpBatchGet _ => true
  | OpSet _ _ _ | OpInfo _ | OpBatchSet _ => false
  end.

(** A run from [s] to [s'] made the one call [req]: it is the last entry of
    the log and the world is as that call left it. *)
Definition sends {W} (net : Request -> W -> (RequestException + Response) * W)
    (s s' : Session W) (req : Request) : Prop :=
  sent s' = (sent s ++ [req])%list /\ world s' = (net req (world s)).2.

(** [n] slashes. *)
Fixpoint slashes (n : nat) : string :=
  match n with
  | O => EmptyString
  | S n' => String "/" (slashes n')
  end.

(** ** Mock transports *)

(** The mock of the unit tests: [requests.request] is patched to hand back
    one prepared answer, whatever the call. *)
Definition mock_request (a : RequestException + Response)
    : Request -> unit -> (RequestException + Response) * unit :=
  fun _ w => (a, w).

(** A mock response as the tests build it: [raise_for_status] returns,
    [content] is set and [json.return_value] is [v]. *)
Definition mock_response (body : string) (v : pyval) : Response :=
  {| raise_for_status := None; content := body; json := inr v |}.

(** A server that keeps, per URL, the value last posted there: a POST
    carrying a dict with a [value] field stores that field and answers with
    an empty body; a GET answers [{"value": stored}] ([null] when nothing is
    stored); anything else is answered with an empty body. *)
Definition store_server
    : Request -> gmap string pyval -> (RequestException + Response) * gmap string pyval :=
  fun req w =>
    if String.eqb (req_method req) "POST" then
      match req_json req with
      | Some (PDict d) =>
          match d !! "value" with
          | Some v => (inr (mock_response "" PNone), <[ req_url req := v ]> w)
          | None => (inr (mock_response "" PNone), w)
          end
      | _ => (inr (mock_response "" PNone), w)
      end
    else if String.eqb (req_method req) "GET" then
      (inr (mock_response "{...}"
              (PDict {[ "value" := default PNone (w !! req_url req) ]})), w)
    else (inr (mock_response "" PNone), w).

(** Start of a run: nothing sent yet. *)
Definition fresh {W} (w : W) : Session W := {| world := w; sent := [] |}.

(** The fixtures of tests/test_string_client.py ([setUp]) and the shape of
    its [assert_called_once_with] checks. *)
Definition test_client : DbxClient := DbxClient_init "http://localhost:8080" None None.
Definition test_string_client : StringClient := {| client := test_client |}.

Definition called_once_with (method url : string) (kw : option pyval) : list Request :=
  [ {| req_method := method; req_url := url; req_timeout := None;
       req_headers := ∅; req_json := kw |} ].

(** Failures used in the examples: a refused connection, and the
    [HTTPError] of a 500 answer. *)
Definition connection_refused : RequestException :=
  {| exc_class := "ConnectionError"; exc_str := "connection refused" |}.

Definition server_error : RequestException :=
  {| exc_class := "HTTPError"; exc_str := "500 Server Error" |}.

Definition response_500 : Response :=
  {| raise_for_status := Some server_error; content := "oops"; json := inl
       {| exc_class := "JSONDecodeError"; exc_str := "Expecting value" |} |}.

(** *** Status codes

    The code never reads the status of an answer; it only calls
    [response.raise_for_status()].  In the [requests] library that method
    raises an [HTTPError] when [400 <= status_code < 600] and returns for
    every other status. *)
Definition is_error_status (status_code : Z) : bool :=
  (400 <=? status_code)%Z && (status_code <? 600)%Z.

(** A success status in the sense of HTTP: 2xx. *)
Definition is_success_status (status_code : Z) : bool :=
  (200 <=? status_code)%Z && (status_code <? 300)%Z.

(** The response object of an answer with status [status_code], body
    [body] and decoding [parsed]; [e] is the [HTTPError] the library builds
    when the status is an error status. *)
Definition status_response (status_code : Z) (e : RequestException)
    (body : string) (parsed : RequestException + pyval) : Response :=
  {| raise_for_status := if is_error_status status_code then Some e else None;
     content := body;
     json := parsed |}.

Definition http_error (text : string) : RequestException :=
  {| exc_class := "HTTPError"; exc_str := text |}.

(** A 304 Not Modified answer (it has no body), and a 404 answer with a
    JSON body. *)
Definition not_modified : Response :=
  status_response 304 (http_error "304 Not Modified") ""
    (inl {| exc_class := "JSONDecodeError"; exc_str := "Expecting value" |}).

Definition not_found : Response :=
  status_response 404 (http_error "404 Client Error") "{...}"
    (inr (PDict {[ "value" := PStr "stale" ]})).

(** A 200 answer whose body is not JSON. *)
Definition decode_error : RequestException :=
  {| exc_class := "JSONDecodeError"; exc_str := "Expecting value" |}.

Definition undecodable_response : Response :=
  {| raise_for_status := None; content := "<html>"; json := inl decode_error |}.

(** ** Facts about [rstrip] *)

Lemma char_in_slash c : char_in c "/" = true -> c = "/"%char.
Proof.
  simpl. destruct (Ascii.eqb c "/") eqn:E; [|discriminate].
  intros _. apply Ascii.eqb_eq, E.
Qed.

Lemma append_nil_l (s : string) : "" ++ s = s.
Proof. reflexivity. Qed.

Lemma append_cons a (s t : string) : String a s ++ t = String a (s ++ t).
Proof. reflexivity. Qed.

Lemma app_last_nonempty (p : string) c : p ++ String c "" <> "".
Proof. destruct p; discriminate. Qed.

(** The result does not end with a character of [chars]. *)
Lemma rstrip_last chars s : forall p c,
  rstrip chars s = p ++ String c "" -> char_in c chars = false.
Proof.
  induction s as [|a rest IH]; intros p c H; cbn [rstrip] in H.
  - symmetry in H. exfalso. exact (app_last_nonempty _ _ H).
  - destruct (rstrip chars rest) as [|x y] eqn:R.
    + destruct (char_in a chars) eqn:A.
      * symmetry in H. exfalso. exact (app_last_nonempty _ _ H).
      * destruct p as [|b p']; rewrite ?append_nil_l, ?append_cons in H.
        -- injection H as ->. exact A.
        -- injection H as _ H. exfalso. exact (app_last_nonempty _ _ (eq_sym H)).
    + destruct p as [|b p']; rewrite ?append_nil_l, ?append_cons in H.
      * discriminate H.
      * injection H as _ H. exact (IH _ _ H).
Qed.

(** Only a suffix of slashes is taken away. *)
Lemma rstrip_slash_suffix s : exists n, s = rstrip "/" s ++ slashes n.
Proof.
  induction s as [|a rest [n IH]].
  - exists 0. reflexivity.
  - cbn [rstrip]. destruct (rstrip "/" rest) as [|x y] eqn:R.
    + rewrite append_nil_l in IH. destruct (char_in a "/") eqn:A.
      * exists (S n). apply char_in_slash in A. subst a.
        rewrite append_nil_l. cbn [slashes]. f_equal. exact IH.
      * exists n. rewrite append_cons, append_nil_l. f_equal. exact IH.
    + exists n. rewrite append_cons. f_equal. exact IH.
Qed.

(** ** Facts about truth values *)

Lemma truthy_dict_nonempty (d : gmap string pyval) :
  d <> ∅ -> truthy (PDict d) = true.
Proof.
  intros Hd. simpl. apply map_size_non_empty_iff in Hd.
  destruct (size d); [congruence|reflexivity].
Qed.

Lemma truthy_dict_lookup (d : gmap string pyval) k v :
  d !! k = Some v -> truthy (PDict d) = true.
Proof.
  intros Hk. apply truthy_dict_nonempty. intros ->.
  rewrite lookup_empty in Hk. discriminate.
Qed.

(** ** Facts about the transport *)

Section TransportFacts.

Context {W : Type}.
Variable net : Request -> W -> (RequestException + Response) * W.

Lemma _request_unfold self method path kwargs (s : Session W) :
  _request net self method path kwargs s =
  (outcome (net (the_call self method path kwargs) (world s)).1,
   {| world := (net (the_call self method path kwargs) (world s)).2;
      sent := (sent s ++ [the_call self method path kwargs])%list |}).
Proof.
  unfold _request, try_except, mbind, M_bind, bind, call_requests, the_call.
  destruct (net _ (world s)) as [[e|r] w']; simpl; [reflexivity|].
  unfold call_raise_for_status, call_json, outcome, raise, ret.
  destruct (raise_for_status r); simpl; [reflexivity|].
  destruct (nonempty (content r)); [|reflexivity].
  destruct (json r); reflexivity.
Qed.

Lemma outcome_failure a e :
  transport_failure a e ->
  outcome a = inl (RuntimeError ("Request failed: " ++ exc_str e) e).
Proof. intros [e'|r e' Hr]; simpl; [reflexivity|]. rewrite Hr. reflexivity. Qed.

Lemma outcome_empty r : empty_success r -> outcome (inr r) = inr PNone.
Proof. intros [H1 H2]. simpl. rewrite H1, H2. reflexivity. Qed.

Lemma outcome_body r v : success_body r v -> outcome (inr r) = inr v.
Proof. intros (H1 & H2 & H3). simpl. rewrite H1, H2, H3. reflexivity. Qed.

Lemma outcome_accepted r : accepted r -> exists v, outcome (inr r) = inr v.
Proof.
  intros [H1 H2]. simpl. rewrite H1.
  destruct (nonempty (content r)); [|eauto].
  destruct H2 as [v ->]; eauto.
Qed.

(** Run the [_request] of a facade method and expose the answer to it. *)
Ltac run_request :=
  unfold get, set, delete, info, batch_get, batch_set, mbind, M_bind, bind;
  rewrite _request_unfold; unfold reply, op_request; simpl.

(** Each operation in terms of the answer to its call. *)
Lemma get_unfold self key (s : Session W) :
  (get net self key s).1 =
  match outcome (reply net self (OpGet key) s) with
  | inl err => inl err
  | inr response =>
      if truthy response then
        match response with
        | PDict d => inr (default PNone (d !! "value"))
        | _ => inl (AttributeError
                      ("'" ++ type_name response ++ "' object has no attribute 'get'"))
        end
      else inr PNone
  end.
Proof.
  run_request.
  destruct (outcome _) as [err|v]; [reflexivity|].
  destruct (truthy v); [destruct v|]; reflexivity.
Qed.

Lemma delete_unfold self key (s : Session W) :
  (delete net self key s).1 =
  match outcome (reply net self (OpDelete key) s) with
  | inl err => inl err
  | inr response =>
      if truthy response then
        match response with
        | PDict d => inr (default (PBool false) (d !! "deleted"))
        | _ => inl (AttributeError
                      ("'" ++ type_name response ++ "' object has no attribute 'get'"))
        end
      else inr (PBool false)
  end.
Proof.
  run_request.
  destruct (outcome _) as [err|v]; [reflexivity|].
  destruct (truthy v); [destruct v|]; reflexivity.
Qed.

Lemma info_unfold self key (s : Session W) :
  (info net self key s).1 =
  match outcome (reply net self (OpInfo key) s) with
  | inl err => inl err
  | inr response => if truthy response then inr response else inr PNone
  end.
Proof.
  run_request.
  destruct (outcome _) as [err|v]; [reflexivity|].
  destruct (truthy v); reflexivity.
Qed.

Lemma batch_get_unfold self keys (s : Session W) :
  (batch_get net self keys s).1 =
  match outcome (reply net self (OpBatchGet keys) s) with
  | inl err => inl err
  | inr response =>
      if truthy response then
        match response with
        | PDict d => inr (default (PList []) (d !! "values"))
        | _ => inl (AttributeError
                      ("'" ++ type_name response ++ "' object has no attribute 'get'"))
        end
      else inr (PList [])
  end.
Proof.
  run_request.
  destruct (outcome _) as [err|v]; [reflexivity|].
  destruct (truthy v); [destruct v|]; reflexivity.
Qed.

(** Every operation makes exactly one call, [op_request], and leaves the
    world as that call left it. *)
Lemma op_request_sent self op (s : Session W) :
  (call net self op s).2 =
  {| world := (net (op_request self op) (world s)).2;
     sent := (sent s ++ [op_request self op])%list |}.
Proof.
  destruct op as [key|key value [t|]|key|key|keys|operations]; simpl;
    run_request;
    (destruct (outcome _) as [e|v]; simpl; [reflexivity|]);
    first [reflexivity | destruct (truthy v); [destruct v|]; reflexivity].
Qed.

(** An error of [_request] passes through every operation unchanged. *)
Lemma call_error self op (s : Session W) err :
  outcome (reply net self op s) = inl err ->
  (call net self op s).1 = inl err.
Proof.
  destruct op as [key|key value [t|]|key|key|keys|operations]; simpl;
    run_request; intros ->; reflexivity.
Qed.

(** ** Failures of the transport *)

(** C1, as amended. Whatever the operation (get, set, delete, info,
    batch_get, batch_set): when the network call raises a
    [RequestException] [e], or the server answers with a status that
    [raise_for_status()] rejects, raising [e] (in [requests]: the error
    statuses 4xx and 5xx), the operation raises the single error of
    [_request], [RuntimeError("Request failed: e")] chained from [e] (the
    kind the specification names RequestError), and it has made that one
    call and no other: nothing is retried.  A status outside 2xx that
    [raise_for_status()] lets through (a 304, say) is no failure for the
    code. *)
Theorem transport_failure_raises_one_error self op (s : Session W) e :
  transport_failure (reply net self op s) e ->
  (call net self op s).1 = inl (RuntimeError ("Request failed: " ++ exc_str e) e)
  /\ sent (call net self op s).2 = (sent s ++ [op_request self op])%list.
Proof.
  intros Hfail. split.
  - apply call_error, outcome_failure, Hfail.
  - rewrite op_request_sent. reflexivity.
Qed.

(** ** An empty body *)

(** C2. For every key and every list of keys: when the transport answers
    the call with a success status and an empty body, [_request] returns
    [None] and each extraction gives its fallback without raising:
    [get] returns [None], [delete] returns [False], [info] returns [None]
    and [batch_get] returns the empty list. *)
Theorem empty_body_gives_fallback self (s : Session W) r :
  empty_success r ->
  (forall key, reply net self (OpGet key) s = inr r ->
               (get net self key s).1 = inr PNone)
  /\ (forall key, reply net self (OpDelete key) s = inr r ->
                  (delete net self key s).1 = inr (PBool false))
  /\ (forall key, reply net self (OpInfo key) s = inr r ->
                  (info net self key s).1 = inr PNone)
  /\ (forall keys, reply net self (OpBatchGet keys) s = inr r ->
                   (batch_get net self keys s).1 = inr (PList [])).
Proof.
  intros Hr. apply outcome_empty in Hr.
  repeat split; intros k Hk.
  - rewrite get_unfold, Hk, Hr. reflexivity.
  - rewrite delete_unfold, Hk, Hr. reflexivity.
  - rewrite info_unfold, Hk, Hr. reflexivity.
  - rewrite batch_get_unfold, Hk, Hr. reflexivity.
Qed.

(** ** Request bodies *)

(** C3. For every key [k], value [v] and ttl [t]: [set(k, v, ttl=t)] makes
    one POST on the key path whose JSON body is exactly
    [{"value": v, "ttl": t}]; [set(k, v)] without ttl makes one POST whose
    body is exactly [{"value": v}], which has no [ttl] field. *)
Theorem set_request_body self key value t (s : Session W) :
  sent (set net self key value (Some t) s).2 =
    (sent s ++ [ {| req_method := "POST";
                    req_url := base_url (client self) ++ "/redis/string/" ++ key;
                    req_timeout := timeout (client self);
                    req_headers := headers (client self);
                    req_json := Some (PDict {[ "value" := PStr value;
                                               "ttl" := PInt t ]}) |} ])%list
  /\ sent (set net self key value None s).2 =
    (sent s ++ [ {| req_method := "POST";
                    req_url := base_url (client self) ++ "/redis/string/" ++ key;
                    req_timeout := timeout (client self);
                    req_headers := headers (client self);
                    req_json := Some (PDict {[ "value" := PStr value ]}) |} ])%list
  /\ ({[ "value" := PStr value ]} : gmap string pyval) !! "ttl" = None.
Proof.
  split; [|split].
  - pose proof (op_request_sent self (OpSet key value (Some t)) s) as H.
    simpl in H. unfold mbind, M_bind, bind in H.
    destruct (set net self key value (Some t) s) as [[e|u] s'];
      simpl in H |- *; rewrite H; simpl;
      unfold op_request, the_call; simpl;
      rewrite (insert_singleton_ne "ttl" "value") by discriminate; reflexivity.
  - pose proof (op_request_sent self (OpSet key value None) s) as H.
    simpl in H. unfold mbind, M_bind, bind in H.
    destruct (set net self key value None s) as [[e|u] s'];
      simpl in H |- *; rewrite H; reflexivity.
  - apply lookup_singleton_ne. discriminate.
Qed.

(** ** Extraction of the answer *)

(** C4. For every list of keys: [batch_get(keys)] makes one POST on the
    batch-get path with body [{"keys": keys}], and when the answer is a
    success whose body is an object with a [values] field, it returns that
    field as it is: same entries, same order, [null] entries included. *)
Theorem batch_get_returns_values self keys (s : Session W) r d vs :
  let req := {| req_method := "POST";
                req_url := base_url (client self) ++ "/redis/string/batch_get";
                req_timeout := timeout (client self);
                req_headers := headers (client self);
                req_json := Some (PDict {[ "keys" := PList (PStr <$> keys) ]}) |} in
  (net req (world s)).1 = inr r ->
  success_body r (PDict d) ->
  d !! "values" = Some vs ->
  (batch_get net self keys s).1 = inr vs
  /\ sent (batch_get net self keys s).2 = (sent s ++ [req])%list.
Proof.
  intros req Hreq Hr Hd. split.
  - rewrite batch_get_unfold. unfold reply.
    change (op_request self (OpBatchGet keys)) with req.
    rewrite Hreq, (outcome_body _ _ Hr), (truthy_dict_lookup _ _ _ Hd), Hd.
    reflexivity.
  - pose proof (op_request_sent self (OpBatchGet keys) s) as H.
    simpl in H. rewrite H. reflexivity.
Qed.

(** C5. For every key: [delete(k)] makes one DELETE on the key path, and
    when the answer is a success whose body is an object carrying a
    boolean [deleted] field, it returns that boolean; so a 200 answer
    [{"deleted": true}] makes [delete("testkey")] return [True]. *)
Theorem delete_returns_deleted_field self key (s : Session W) r d b :
  let req := {| req_method := "DELETE";
                req_url := base_url (client self) ++ "/redis/string/" ++ key;
                req_timeout := timeout (client self);
                req_headers := headers (client self);
                req_json := None |} in
  (net req (world s)).1 = inr r ->
  success_body r (PDict d) ->
  d !! "deleted" = Some (PBool b) ->
  (delete net self key s).1 = inr (PBool b)
  /\ sent (delete net self key s).2 = (sent s ++ [req])%list.
Proof.
  intros req Hreq Hr Hd. split.
  - rewrite delete_unfold. unfold reply.
    change (op_request self (OpDelete key)) with req.
    rewrite Hreq, (outcome_body _ _ Hr), (truthy_dict_lookup _ _ _ Hd), Hd.
    reflexivity.
  - pose proof (op_request_sent self (OpDelete key) s) as H.
    simpl in H. rewrite H. reflexivity.
Qed.

(** C6. For every key [k] and value [v] (with or without ttl): against a
    transport whose server stores the value posted by [set] and serves it
    back as the [value] field, [set(k, v)] returns normally and the
    [get(k)] that follows returns [v]. *)
Theorem set_then_get_returns_value self key value ttl (s : Session W) :
  stores_and_serves net ->
  exists s1 s2,
    set net self key value ttl s = (inr tt, s1)
    /\ get net self key s1 = (inr (PStr value), s2).
Proof.
  intros Hnet.
  set (d := match ttl with
            | Some t => <[ "ttl" := PInt t ]> {[ "value" := PStr value ]}
            | None => ({[ "value" := PStr value ]} : gmap string pyval)
            end).
  assert (Hd : d !! "value" = Some (PStr value)).
  { subst d. destruct ttl.
    - rewrite lookup_insert_ne by discriminate. apply lookup_singleton_eq.
    - apply lookup_singleton_eq. }
  destruct (Hnet (base_url (client self) ++ "/redis/string/" ++ key)
              (timeout (client self)) (headers (client self)) d
              (PStr value) (world s) Hd)
    as (r & w' & Hpost & Hacc & r' & d' & w'' & Hget & Hbody & Hv).
  apply outcome_accepted in Hacc. destruct Hacc as [v0 Hv0].
  apply outcome_body in Hbody.
  do 2 eexists. split.
  - unfold set, mbind, M_bind, bind. rewrite _request_unfold.
    unfold the_call. fold d. rewrite Hpost. cbn [fst snd].
    rewrite Hv0. reflexivity.
  - unfold get, mbind, M_bind, bind. rewrite _request_unfold.
    unfold the_call. cbn [world fst snd]. rewrite Hget. cbn [fst snd].
    rewrite Hbody, (truthy_dict_lookup _ _ _ Hv).
    unfold py_get, ret. rewrite Hv. reflexivity.
Qed.

(** ** The base URL *)

(** C7. For every base URL given at construction (with any timeout and
    headers) and every operation called afterwards: the stored base URL
    does not end with a slash, it is the given URL without its trailing
    slashes, and the URL of the request the operation sends is that stored
    base URL followed by the path of the operation. *)
Theorem base_url_stripped_and_prefixed b t h op (s : Session W) :
  let self := {| client := DbxClient_init b t h |} in
  (forall p, base_url (client self) <> p ++ "/")
  /\ (exists n, b = base_url (client self) ++ slashes n)
  /\ exists req,
       sent (call net self op s).2 = (sent s ++ [req])%list
       /\ req_url req = base_url (client self) ++ op_path op.
Proof.
  intros self. split; [|split].
  - intros p Hp. apply rstrip_last in Hp. discriminate Hp.
  - apply rstrip_slash_suffix.
  - exists (op_request self op). split; [|reflexivity].
    rewrite op_request_sent. reflexivity.
Qed.

(** ** Bodies that are not the expected object *)

(** C8. When the answer is a success whose body parses to a non-empty
    object that lacks the field the operation reads, the operation falls
    back without raising: [get] returns [None] when [value] is absent,
    [delete] returns [False] when [deleted] is absent, [batch_get] returns
    the empty list when [values] is absent. *)
Theorem missing_field_gives_fallback self (s : Session W) r d :
  success_body r (PDict d) ->
  d <> ∅ ->
  (forall key, d !! "value" = None ->
               reply net self (OpGet key) s = inr r ->
               (get net self key s).1 = inr PNone)
  /\ (forall key, d !! "deleted" = None ->
                  reply net self (OpDelete key) s = inr r ->
                  (delete net self key s).1 = inr (PBool false))
  /\ (forall keys, d !! "values" = None ->
                   reply net self (OpBatchGet keys) s = inr r ->
                   (batch_get net self keys s).1 = inr (PList [])).
Proof.
  intros Hr Hd. apply outcome_body in Hr. apply truthy_dict_nonempty in Hd.
  repeat split; intros k Hf Hk.
  - rewrite get_unfold, Hk, Hr, Hd, Hf. reflexivity.
  - rewrite delete_unfold, Hk, Hr, Hd, Hf. reflexivity.
  - rewrite batch_get_unfold, Hk, Hr, Hd, Hf. reflexivity.
Qed.

(** C9. When the answer is a success whose non-empty body parses to a
    falsy value (the empty object [{}] is one; so are [[]], the empty
    string, [0], [false] and [null]), [info] returns [None] instead of
    that body, and [get], [delete] and [batch_get] return their fallbacks
    [None], [False] and the empty list: the results are those of an empty
    body. *)
Theorem falsy_body_treated_as_absent self (s : Session W) r v :
  success_body r v ->
  truthy v = false ->
  truthy (PDict ∅) = false
  /\ (forall key, reply net self (OpInfo key) s = inr r ->
                  (info net self key s).1 = inr PNone)
  /\ (forall key, reply net self (OpGet key) s = inr r ->
                  (get net self key s).1 = inr PNone)
  /\ (forall key, reply net self (OpDelete key) s = inr r ->
                  (delete net self key s).1 = inr (PBool false))
  /\ (forall keys, reply net self (OpBatchGet keys) s = inr r ->
                   (batch_get net self keys s).1 = inr (PList [])).
Proof.
  intros Hr Hv. apply outcome_body in Hr.
  split; [reflexivity|].
  repeat split; intros k Hk.
  - rewrite info_unfold, Hk, Hr, Hv. reflexivity.
  - rewrite get_unfold, Hk, Hr, Hv. reflexivity.
  - rewrite delete_unfold, Hk, Hr, Hv. reflexivity.
  - rewrite batch_get_unfold, Hk, Hr, Hv. reflexivity.
Qed.

(** C10. There are successful answers on which the extraction raises:
    whenever the non-empty body parses to a truthy value that is not an
    object (a non-empty array, a non-empty string, a non-zero number,
    [true]), [get], [delete] and [batch_get] raise an [AttributeError]
    (the value has no [get] method) instead of returning a value or a
    fallback. *)
Theorem truthy_non_object_raises self (s : Session W) r v :
  success_body r v ->
  truthy v = true ->
  is_dict v = false ->
  let err := AttributeError ("'" ++ type_name v ++ "' object has no attribute 'get'") in
  (forall key, reply net self (OpGet key) s = inr r ->
               (get net self key s).1 = inl err)
  /\ (forall key, reply net self (OpDelete key) s = inr r ->
                  (delete net self key s).1 = inl err)
  /\ (forall keys, reply net self (OpBatchGet keys) s = inr r ->
                   (batch_get net self keys s).1 = inl err).
Proof.
  intros Hr Hv Hnd err. apply outcome_body in Hr.
  repeat split; intros k Hk.
  - rewrite get_unfold, Hk, Hr, Hv. destruct v; try reflexivity; discriminate.
  - rewrite delete_unfold, Hk, Hr, Hv. destruct v; try reflexivity; discriminate.
  - rewrite batch_get_unfold, Hk, Hr, Hv. destruct v; try reflexivity; discriminate.
Qed.

End TransportFacts.

(** ** The theorems at concrete inputs *)

Lemma transport_failure_raises_one_error_witness :
  let net := mock_request (inl connection_refused) in
  let op := OpSet "testkey" "testvalue" (Some 3600%Z) in
  transport_failure (reply net test_string_client op (fresh tt)) connection_refused
  /\ (call net test_string_client op (fresh tt)).1
     = inl (RuntimeError "Request failed: connection refused" connection_refused)
  /\ sent (call net test_string_client op (fresh tt)).2
     = [op_request test_string_client op].
Proof.
  intros net op. split; [constructor|].
  apply (transport_failure_raises_one_error net test_string_client op (fresh tt)
           connection_refused).
  constructor.
Defined.

(** A status outside 2xx is not always a failure: on a 304 answer
    [raise_for_status()] returns, the empty body gives [None], and all six
    operations return normally (their fallbacks), with no error raised. *)
Lemma non_success_status_returns_normally :
  is_success_status 304 = false
  /\ raise_for_status not_modified = None
  /\ (call (mock_request (inr not_modified)) test_string_client
        (OpGet "testkey") (fresh tt)).1 = inr PNone
  /\ (call (mock_request (inr not_modified)) test_string_client
        (OpSet "testkey" "testvalue" None) (fresh tt)).1 = inr PNone
  /\ (call (mock_request (inr not_modified)) test_string_client
        (OpDelete "testkey") (fresh tt)).1 = inr (PBool false)
  /\ (call (mock_request (inr not_modified)) test_string_client
        (OpInfo "testkey") (fresh tt)).1 = inr PNone
  /\ (call (mock_request (inr not_modified)) test_string_client
        (OpBatchGet ["key1"; "key2"]) (fresh tt)).1 = inr (PList [])
  /\ (call (mock_request (inr not_modified)) test_string_client
        (OpBatchSet [ {[ "key" := PStr "key1"; "value" := PStr "val1" ]} ])
        (fresh tt)).1 = inr PNone.
Proof. repeat split; reflexivity. Qed.

(** An error status is a failure of the transport, whatever the body. *)
Lemma error_status_is_transport_failure status_code e body parsed :
  is_error_status status_code = true ->
  transport_failure (inr (status_response status_code e body parsed)) e.
Proof.
  intros H. constructor. unfold status_response. simpl. rewrite H. reflexivity.
Qed.

(** A status that is not an error status never makes [raise_for_status()]
    raise: 1xx, 2xx and 3xx answers are all read like successes. *)
Lemma other_status_is_accepted status_code e body parsed :
  is_error_status status_code = false ->
  raise_for_status (status_response status_code e body parsed) = None.
Proof. intros H. unfold status_response. simpl. rewrite H. reflexivity. Qed.

(** A 404 answer with a well-formed JSON body: the body is not read. *)
Example status_404_runs :
  (call (mock_request (inr not_found)) test_string_client (OpGet "k") (fresh tt)).1
  = inl (RuntimeError "Request failed: 404 Client Error"
           (http_error "404 Client Error")).
Proof. reflexivity. Qed.

(** A 500 answer: all six operations raise the same wrapped error after one
    call each. *)
Example error_status_all_operations :
  let net := mock_request (inr response_500) in
  Forall (fun op =>
            (call net test_string_client op (fresh tt)).1
            = inl (RuntimeError "Request failed: 500 Server Error" server_error)
            /\ length (sent (call net test_string_client op (fresh tt)).2) = 1)
    [OpGet "k"; OpSet "k" "v" None; OpDelete "k"; OpInfo "k";
     OpBatchGet ["k"]; OpBatchSet [ {[ "key" := PStr "k"; "value" := PStr "v" ]} ]].
Proof. repeat constructor. Qed.

Lemma empty_body_gives_fallback_witness :
  let r := mock_response "" PNone in
  let net := mock_request (inr r) in
  empty_success r
  /\ (get net test_string_client "testkey" (fresh tt)).1 = inr PNone
  /\ (delete net test_string_client "testkey" (fresh tt)).1 = inr (PBool false)
  /\ (info net test_string_client "testkey" (fresh tt)).1 = inr PNone
  /\ (batch_get net test_string_client ["key1"; "key2"] (fresh tt)).1 = inr (PList []).
Proof.
  intros r net.
  assert (Hr : empty_success r) by (split; reflexivity).
  destruct (empty_body_gives_fallback net test_string_client (fresh tt) r Hr)
    as (Hget & Hdelete & Hinfo & Hbatch).
  split; [exact Hr|].
  split; [apply Hget; reflexivity|].
  split; [apply Hdelete; reflexivity|].
  split; [apply Hinfo; reflexivity|].
  apply Hbatch; reflexivity.
Defined.

Lemma batch_get_returns_values_witness :
  let d : gmap string pyval := {[ "values" := PList [PStr "val1"; PStr "val2"; PNone] ]} in
  let r := mock_response "1" (PDict d) in
  let net := mock_request (inr r) in
  let keys := ["key1"; "key2"; "key3"] in
  let req := {| req_method := "POST";
                req_url := base_url test_client ++ "/redis/string/batch_get";
                req_timeout := None; req_headers := ∅;
                req_json := Some (PDict {[ "keys" := PList (PStr <$> keys) ]}) |} in
  (net req tt).1 = inr r
  /\ success_body r (PDict d)
  /\ d !! "values" = Some (PList [PStr "val1"; PStr "val2"; PNone])
  /\ (batch_get net test_string_client keys (fresh tt)).1
     = inr (PList [PStr "val1"; PStr "val2"; PNone])
  /\ sent (batch_get net test_string_client keys (fresh tt)).2 = [req].
Proof.
  intros d r net keys req.
  assert (Hr : success_body r (PDict d)) by (repeat split; reflexivity).
  assert (Hd : d !! "values" = Some (PList [PStr "val1"; PStr "val2"; PNone]))
    by reflexivity.
  split; [reflexivity|]. split; [exact Hr|]. split; [exact Hd|].
  exact (batch_get_returns_values net test_string_client keys (fresh tt) r d _
           eq_refl Hr Hd).
Defined.

Lemma delete_returns_deleted_field_witness :
  let d : gmap string pyval := {[ "deleted" := PBool true ]} in
  let r := mock_response "1" (PDict d) in
  let net := mock_request (inr r) in
  let req := {| req_method := "DELETE";
                req_url := base_url test_client ++ "/redis/string/testkey";
                req_timeout := None; req_headers := ∅; req_json := None |} in
  (net req tt).1 = inr r
  /\ success_body r (PDict d)
  /\ d !! "deleted" = Some (PBool true)
  /\ (delete net test_string_client "testkey" (fresh tt)).1 = inr (PBool true)
  /\ sent (delete net test_string_client "testkey" (fresh tt)).2 = [req].
Proof.
  intros d r net req.
  assert (Hr : success_body r (PDict d)) by (repeat split; reflexivity).
  assert (Hd : d !! "deleted" = Some (PBool true)) by reflexivity.
  split; [reflexivity|]. split; [exact Hr|]. split; [exact Hd|].
  exact (delete_returns_deleted_field net test_string_client "testkey" (fresh tt)
           r d true eq_refl Hr Hd).
Defined.

(** [store_server] is a transport that stores and serves. *)
Lemma store_server_stores_and_serves : stores_and_serves store_server.
Proof.
  intros u t h d v w Hd. unfold store_server. cbn [req_method req_json req_url].
  change (String.eqb "POST" "POST") with true.
  change (String.eqb "GET" "POST") with false.
  change (String.eqb "GET" "GET") with true.
  cbv iota. rewrite Hd.
  eexists _, _. split; [reflexivity|].
  split.
  - split; [reflexivity|]. intros H. discriminate H.
  - eexists _, _, _. split; [reflexivity|].
    split; [repeat split; reflexivity|].
    rewrite lookup_singleton_eq, lookup_insert_eq. reflexivity.
Qed.

Lemma set_then_get_returns_value_witness :
  stores_and_serves store_server
  /\ exists s1 s2,
       set store_server test_string_client "testkey" "testvalue" None (fresh ∅)
       = (inr tt, s1)
       /\ get store_server test_string_client "testkey" s1
          = (inr (PStr "testvalue"), s2).
Proof.
  split; [exact store_server_stores_and_serves|].
  exact (set_then_get_returns_value store_server test_string_client
           "testkey" "testvalue" None (fresh ∅) store_server_stores_and_serves).
Defined.

(** The same round trip, run: the value comes back, with and without ttl,
    and a later [set] on the key replaces it. *)
Example set_get_runs :
  let c := test_string_client in
  let run :=
    set store_server c "k" "v1" (Some 60%Z);;
    a ← get store_server c "k";
    set store_server c "k" "v2" None;;
    b ← get store_server c "k";
    mret (a, b) in
  (run (fresh ∅)).1 = inr (PStr "v1", PStr "v2").
Proof. vm_compute. reflexivity. Qed.

Lemma missing_field_gives_fallback_witness :
  let d : gmap string pyval := {[ "status" := PStr "ok" ]} in
  let r := mock_response "1" (PDict d) in
  let net := mock_request (inr r) in
  success_body r (PDict d)
  /\ d <> ∅
  /\ (get net test_string_client "testkey" (fresh tt)).1 = inr PNone
  /\ (delete net test_string_client "testkey" (fresh tt)).1 = inr (PBool false)
  /\ (batch_get net test_string_client ["key1"; "key2"] (fresh tt)).1 = inr (PList []).
Proof.
  intros d r net.
  assert (Hr : success_body r (PDict d)) by (repeat split; reflexivity).
  assert (Hd : d <> ∅) by (intros H; discriminate H).
  destruct (missing_field_gives_fallback net test_string_client (fresh tt) r d Hr Hd)
    as (Hget & Hdelete & Hbatch).
  split; [exact Hr|]. split; [exact Hd|].
  split; [apply Hget; reflexivity|].
  split; [apply Hdelete; reflexivity|].
  apply Hbatch; reflexivity.
Defined.

Lemma falsy_body_treated_as_absent_witness :
  let r := mock_response "{}" (PDict ∅) in
  let net := mock_request (inr r) in
  success_body r (PDict ∅)
  /\ truthy (PDict ∅) = false
  /\ (info net test_string_client "testkey" (fresh tt)).1 = inr PNone
  /\ (get net test_string_client "testkey" (fresh tt)).1 = inr PNone
  /\ (delete net test_string_client "testkey" (fresh tt)).1 = inr (PBool false)
  /\ (batch_get net test_string_client ["key1"; "key2"] (fresh tt)).1 = inr (PList []).
Proof.
  intros r net.
  assert (Hr : success_body r (PDict ∅)) by (repeat split; reflexivity).
  destruct (falsy_body_treated_as_absent net test_string_client (fresh tt) r
              (PDict ∅) Hr eq_refl)
    as (Hempty & Hinfo & Hget & Hdelete & Hbatch).
  split; [exact Hr|]. split; [exact Hempty|].
  split; [apply Hinfo; reflexivity|].
  split; [apply Hget; reflexivity|].
  split; [apply Hdelete; reflexivity|].
  apply Hbatch; reflexivity.
Defined.

(** Other falsy bodies, run: [[]], the empty string, [0], [0.0], [false],
    [null]. *)
Example falsy_bodies_run :
  Forall (fun v =>
            let net := mock_request (inr (mock_response "1" v)) in
            (info net test_string_client "k" (fresh tt)).1 = inr PNone
            /\ (get net test_string_client "k" (fresh tt)).1 = inr PNone
            /\ (delete net test_string_client "k" (fresh tt)).1 = inr (PBool false)
            /\ (batch_get net test_string_client ["k"] (fresh tt)).1 = inr (PList []))
    [PDict ∅; PList []; PStr ""; PInt 0; PFloat (S754_zero false); PBool false; PNone].
Proof. repeat constructor. Qed.

Lemma truthy_non_object_raises_witness :
  let v := PList [PStr "val1"] in
  let r := mock_response "1" v in
  let net := mock_request (inr r) in
  let err := AttributeError "'list' object has no attribute 'get'" in
  success_body r v
  /\ truthy v = true
  /\ is_dict v = false
  /\ (get net test_string_client "testkey" (fresh tt)).1 = inl err
  /\ (delete net test_string_client "testkey" (fresh tt)).1 = inl err
  /\ (batch_get net test_string_client ["key1"; "key2"] (fresh tt)).1 = inl err.
Proof.
  intros v r net err.
  assert (Hr : success_body r v) by (repeat split; reflexivity).
  destruct (truthy_non_object_raises net test_string_client (fresh tt) r v Hr
              eq_refl eq_refl)
    as (Hget & Hdelete & Hbatch).
  split; [exact Hr|]. split; [reflexivity|]. split; [reflexivity|].
  split; [apply Hget; reflexivity|].
  split; [apply Hdelete; reflexivity|].
  apply Hbatch; reflexivity.
Defined.

(** A non-empty string as body, run; [info] hands such a body back. *)
Example string_body_runs :
  let net := mock_request (inr (mock_response "1" (PStr "OK"))) in
  let err := AttributeError "'str' object has no attribute 'get'" in
  (get net test_string_client "k" (fresh tt)).1 = inl err
  /\ (delete net test_string_client "k" (fresh tt)).1 = inl err
  /\ (batch_get net test_string_client ["k"] (fresh tt)).1 = inl err
  /\ (info net test_string_client "k" (fresh tt)).1 = inr (PStr "OK").
Proof. repeat split; reflexivity. Qed.

(** Construction, run: trailing slashes go, inner ones stay; an empty
    headers dict and [None] both give no headers. *)
Example base_url_runs :
  base_url (DbxClient_init "http://localhost:8080///" None None) = "http://localhost:8080"
  /\ base_url (DbxClient_init "http://h/api/" (Some 5%Z) (Some ∅)) = "http://h/api"
  /\ base_url (DbxClient_init "///" None None) = ""
  /\ headers (DbxClient_init "http://h" None (Some ∅)) = ∅
  /\ headers (DbxClient_init "http://h" None (Some {[ "X-Token" := "t" ]}))
     = {[ "X-Token" := "t" ]}.
Proof. repeat split; reflexivity. Qed.

(** ** Further facts about [rstrip] and the constructor *)

Lemma append_nil_r (s : string) : s ++ "" = s.
Proof.
  induction s as [|a s IH]; [reflexivity|].
  rewrite append_cons, IH. reflexivity.
Qed.

Lemma append_assoc (a b c : string) : (a ++ b) ++ c = a ++ (b ++ c).
Proof.
  induction a as [|x a IH]; [reflexivity|].
  rewrite !append_cons, IH. reflexivity.
Qed.

Lemma append_inv_l (p a b : string) : p ++ a = p ++ b -> a = b.
Proof.
  induction p as [|x p IH]; intros H.
  - exact H.
  - rewrite !append_cons in H. injection H as H. exact (IH H).
Qed.

Lemma length_append (a b : string) :
  String.length (a ++ b) = String.length a + String.length b.
Proof.
  induction a as [|x a IH]; [reflexivity|].
  rewrite append_cons. simpl. rewrite IH. reflexivity.
Qed.

Lemma append_inv_r (c a : string) : forall b, a ++ c = b ++ c -> a = b.
Proof.
  induction a as [|x a IH]; intros [|y b] H.
  - reflexivity.
  - apply (f_equal String.length) in H.
    rewrite append_nil_l, append_cons in H. simpl in H.
    rewrite length_append in H. lia.
  - apply (f_equal String.length) in H.
    rewrite append_nil_l, append_cons in H. simpl in H.
    rewrite length_append in H. lia.
  - rewrite !append_cons in H. injection H as -> H. f_equal. exact (IH _ H).
Qed.

Lemma slashes_snoc n : slashes (S n) = slashes n ++ "/".
Proof.
  induction n as [|n IH]; [reflexivity|].
  cbn [slashes] in *. rewrite append_cons. f_equal. exact IH.
Qed.

Lemma rstrip_slashes n : rstrip "/" (slashes n) = "".
Proof.
  induction n as [|n IH]; [reflexivity|].
  cbn [slashes rstrip]. rewrite IH. reflexivity.
Qed.

Lemma rstrip_app_slashes s n : rstrip "/" (s ++ slashes n) = rstrip "/" s.
Proof.
  induction s as [|a s IH].
  - rewrite append_nil_l. apply rstrip_slashes.
  - rewrite append_cons. cbn [rstrip]. rewrite IH. reflexivity.
Qed.

(** X8. The constructor does not see trailing slashes: a base URL and the
    same URL followed by any number of slashes give the same client, and a
    client built from the stored base URL of a client is that client. *)
Theorem DbxClient_init_trailing_slashes b n t h :
  DbxClient_init (b ++ slashes n) t h = DbxClient_init b t h
  /\ DbxClient_init (base_url (DbxClient_init b t h)) t h = DbxClient_init b t h.
Proof.
  unfold DbxClient_init. split; f_equal.
  - apply rstrip_app_slashes.
  - cbn [base_url]. destruct (rstrip_slash_suffix b) as [m Hm].
    rewrite Hm at 2. symmetry. apply rstrip_app_slashes.
Qed.

(** X9. A base URL that does not end with a slash is stored as it is. *)
Theorem DbxClient_init_keeps_clean_url b t h :
  (forall p, b <> p ++ "/") ->
  base_url (DbxClient_init b t h) = b.
Proof.
  intros Hb. cbn [DbxClient_init base_url].
  destruct (rstrip_slash_suffix b) as [[|m] Hm].
  - rewrite append_nil_r in Hm. symmetry. exact Hm.
  - exfalso. apply (Hb (rstrip "/" b ++ slashes m)).
    rewrite append_assoc, <- slashes_snoc. exact Hm.
Qed.

Lemma DbxClient_init_keeps_clean_url_witness :
  (forall p, "http://localhost:8080" <> p ++ "/")
  /\ base_url (DbxClient_init "http://localhost:8080" None None)
     = "http://localhost:8080".
Proof.
  assert (H : forall p, "http://localhost:8080" <> p ++ "/").
  { intros p Hp.
    assert (Hr : rstrip "/" "http://localhost:8080" = p ++ "/") by exact Hp.
    apply rstrip_last in Hr. discriminate Hr. }
  split; [exact H|].
  exact (DbxClient_init_keeps_clean_url "http://localhost:8080" None None H).
Defined.

(** ** Further facts about the operations *)

Section OperationFacts.

Context {W : Type}.
Variable net : Request -> W -> (RequestException + Response) * W.

Ltac run_call :=
  unfold get, set, delete, info, batch_get, batch_set, mbind, M_bind, bind;
  rewrite _request_unfold; unfold reply, op_request; simpl.

Lemma set_unfold self key value ttl (s : Session W) :
  (set net self key value ttl s).1 =
  match outcome (reply net self (OpSet key value ttl) s) with
  | inl err => inl err
  | inr _ => inr tt
  end.
Proof. destruct ttl; run_call; destruct (outcome _); reflexivity. Qed.

Lemma batch_set_unfold self operations (s : Session W) :
  (batch_set net self operations s).1 =
  match outcome (reply net self (OpBatchSet operations) s) with
  | inl err => inl err
  | inr _ => inr tt
  end.
Proof. run_call. destruct (outcome _); reflexivity. Qed.

Lemma call_set_session self key value ttl (s : Session W) :
  (call net self (OpSet key value ttl) s).2 = (set net self key value ttl s).2.
Proof.
  simpl. unfold mbind, M_bind, bind.
  destruct (set net self key value ttl s) as [[e|u] s']; reflexivity.
Qed.

Lemma call_batch_set_session self operations (s : Session W) :
  (call net self (OpBatchSet operations) s).2
  = (batch_set net self operations s).2.
Proof.
  simpl. unfold mbind, M_bind, bind.
  destruct (batch_set net self operations s) as [[e|u] s']; reflexivity.
Qed.

Lemma op_sends self op (s : Session W) :
  sends net s (call net self op s).2 (op_request self op).
Proof. rewrite op_request_sent. split; reflexivity. Qed.

Lemma outcome_decode_failure a e :
  decode_failure a e ->
  outcome a = inl (RuntimeError ("Request failed: " ++ exc_str e) e).
Proof.
  intros (r & -> & H1 & H2 & H3). simpl. rewrite H1, H2, H3. reflexivity.
Qed.

(** When [_request] raises, the transport or the decoding failed. *)
Lemma outcome_error a err :
  outcome a = inl err ->
  exists e, request_failure a e
            /\ err = RuntimeError ("Request failed: " ++ exc_str e) e.
Proof.
  destruct a as [e|r]; simpl.
  - intros [= <-]. exists e. split; [left; constructor | reflexivity].
  - destruct (raise_for_status r) as [e|] eqn:Hs.
    + intros [= <-]. exists e. split; [left; constructor; exact Hs | reflexivity].
    + destruct (nonempty (content r)) eqn:Hc; [|discriminate].
      destruct (json r) as [e|v] eqn:Hj; [|discriminate].
      intros [= <-]. exists e. split; [|reflexivity].
      right. exists r. auto.
Qed.

(** When [_request] returns a truthy value, it is the parsed body. *)
Lemma outcome_truthy r v :
  outcome (inr r) = inr v -> truthy v = true -> success_body r v.
Proof.
  unfold success_body. simpl.
  destruct (raise_for_status r); [discriminate|].
  destruct (nonempty (content r)).
  - destruct (json r); [discriminate|]. intros [= ->] _. repeat split.
  - intros [= <-]. discriminate.
Qed.

(** X1. [get], [info] and [batch_set] each make exactly one call, whatever
    the answer: [get] a GET on the key path and [info] a GET on the key's
    info path, both without body, [batch_set] a POST on the batch-set path
    whose body is [{"operations": operations}] with the list as given; all
    carry the client's timeout and headers, and the outside world is left as
    that one call left it. *)
Theorem get_info_batch_set_requests self key operations (s : Session W) :
  sends net s (get net self key s).2
    {| req_method := "GET";
       req_url := base_url (client self) ++ "/redis/string/" ++ key;
       req_timeout := timeout (client self);
       req_headers := headers (client self);
       req_json := None |}
  /\ sends net s (info net self key s).2
    {| req_method := "GET";
       req_url := base_url (client self) ++ "/redis/string/" ++ key ++ "/info";
       req_timeout := timeout (client self);
       req_headers := headers (client self);
       req_json := None |}
  /\ sends net s (batch_set net self operations s).2
    {| req_method := "POST";
       req_url := base_url (client self) ++ "/redis/string/batch_set";
       req_timeout := timeout (client self);
       req_headers := headers (client self);
       req_json := Some (PDict {[ "operations" := PList (PDict <$> operations) ]}) |}.
Proof.
  split; [|split].
  - exact (op_sends self (OpGet key) s).
  - exact (op_sends self (OpInfo key) s).
  - rewrite <- call_batch_set_session.
    exact (op_sends self (OpBatchSet operations) s).
Qed.

(** X2. Every request of every operation carries the configuration given
    to the constructor: its timeout, and its headers, which are none when
    the headers argument was omitted. *)
Theorem requests_carry_configuration b t h op (s : Session W) :
  let self := {| client := DbxClient_init b t h |} in
  exists req,
    sent (call net self op s).2 = (sent s ++ [req])%list
    /\ req_timeout req = t
    /\ req_headers req = default ∅ h.
Proof.
  intros self. exists (op_request self op).
  split; [rewrite op_request_sent; reflexivity|].
  split; [reflexivity|].
  destruct h as [h|]; [|reflexivity]. simpl.
  destruct (size h) eqn:Hsz; [|reflexivity].
  symmetry. apply map_size_empty_inv, Hsz.
Qed.

(** X3. Whatever the operation: when the answer has a success status and a
    non-empty body that [json()] cannot decode, raising [e], the operation
    raises [RuntimeError("Request failed: e")] chained from [e], after its
    one call. *)
Theorem decode_failure_raises_one_error self op (s : Session W) e :
  decode_failure (reply net self op s) e ->
  (call net self op s).1 = inl (RuntimeError ("Request failed: " ++ exc_str e) e)
  /\ sent (call net self op s).2 = (sent s ++ [op_request self op])%list.
Proof.
  intros Hfail. split.
  - apply call_error, outcome_decode_failure, Hfail.
  - rewrite op_request_sent. reflexivity.
Qed.

(** X4. When the answer is a success whose body is an object, empty or
    not, [get], [delete] and [batch_get] return the field they read as it
    is, whatever its type ([delete] does not turn it into a boolean,
    [batch_get] does not require a list), and their fallback when the field
    is absent. *)
Theorem object_body_extraction self (s : Session W) r d :
  success_body r (PDict d) ->
  (forall key, reply net self (OpGet key) s = inr r ->
               (get net self key s).1 = inr (default PNone (d !! "value")))
  /\ (forall key, reply net self (OpDelete key) s = inr r ->
                  (delete net self key s).1
                  = inr (default (PBool false) (d !! "deleted")))
  /\ (forall keys, reply net self (OpBatchGet keys) s = inr r ->
                   (batch_get net self keys s).1
                   = inr (default (PList []) (d !! "values"))).
Proof.
  intros Hr. apply outcome_body in Hr.
  assert (Hd : truthy (PDict d) = false -> forall k, d !! k = None).
  { simpl. intros Hsz k. destruct (size d) eqn:E; [|discriminate].
    apply map_size_empty_inv in E. subst d. apply lookup_empty. }
  repeat split; intros k Hk.
  - rewrite get_unfold, Hk, Hr.
    destruct (truthy (PDict d)) eqn:Ht; [reflexivity|]. rewrite (Hd eq_refl). reflexivity.
  - rewrite delete_unfold, Hk, Hr.
    destruct (truthy (PDict d)) eqn:Ht; [reflexivity|]. rewrite (Hd eq_refl). reflexivity.
  - rewrite batch_get_unfold, Hk, Hr.
    destruct (truthy (PDict d)) eqn:Ht; [reflexivity|]. rewrite (Hd eq_refl). reflexivity.
Qed.

(** X5. When the answer is a success whose body parses to a truthy value,
    [info] returns that value as it is, object or not: it never looks into
    the body. *)
Theorem info_returns_body self key (s : Session W) r v :
  reply net self (OpInfo key) s = inr r ->
  success_body r v ->
  truthy v = true ->
  (info net self key s).1 = inr v.
Proof.
  intros Hk Hr Hv. apply outcome_body in Hr.
  rewrite info_unfold, Hk, Hr, Hv. reflexivity.
Qed.

(** X6. [set] and [batch_set] do not look at the answer: when it has a
    success status and its body, if any, can be decoded, they return
    normally whatever the body is. *)
Theorem set_and_batch_set_ignore_body self (s : Session W) r :
  accepted r ->
  (forall key value ttl, reply net self (OpSet key value ttl) s = inr r ->
                         (set net self key value ttl s).1 = inr tt)
  /\ (forall operations, reply net self (OpBatchSet operations) s = inr r ->
                         (batch_set net self operations s).1 = inr tt).
Proof.
  intros Hr. apply outcome_accepted in Hr. destruct Hr as [v Hv].
  split.
  - intros key value ttl Hk. rewrite set_unfold, Hk, Hv. reflexivity.
  - intros operations Hk. rewrite batch_set_unfold, Hk, Hv. reflexivity.
Qed.

(** The result of an operation from what [_request] returned. *)
Lemma call_RuntimeError self op (s : Session W) msg e :
  (call net self op s).1 = inl (RuntimeError msg e) <->
  outcome (reply net self op s) = inl (RuntimeError msg e).
Proof.
  destruct op as [key|key value ttl|key|key|keys|operations]; simpl call.
  - rewrite get_unfold. destruct (outcome _) as [err|v]; [tauto|].
    split; [|discriminate]. destruct (truthy v); [destruct v|]; discriminate.
  - unfold mbind, M_bind, bind.
    pose proof (set_unfold self key value ttl s) as H.
    destruct (set net self key value ttl s) as [[err|u] s']; simpl in H |- *;
      destruct (outcome _) as [err'|v]; try discriminate;
      injection H as ->; try tauto.
    split; discriminate.
  - rewrite delete_unfold. destruct (outcome _) as [err|v]; [tauto|].
    split; [|discriminate]. destruct (truthy v); [destruct v|]; discriminate.
  - rewrite info_unfold. destruct (outcome _) as [err|v]; [tauto|].
    split; [|discriminate]. destruct (truthy v); discriminate.
  - rewrite batch_get_unfold. destruct (outcome _) as [err|v]; [tauto|].
    split; [|discriminate]. destruct (truthy v); [destruct v|]; discriminate.
  - unfold mbind, M_bind, bind.
    pose proof (batch_set_unfold self operations s) as H.
    destruct (batch_set net self operations s) as [[err|u] s']; simpl in H |- *;
      destruct (outcome _) as [err'|v]; try discriminate;
      injection H as ->; try tauto.
    split; discriminate.
Qed.

Lemma outcome_not_AttributeError a msg : outcome a <> inl (AttributeError msg).
Proof.
  intros H. apply outcome_error in H. destruct H as (e & _ & H). discriminate H.
Qed.

(** X7. An operation raises a [RuntimeError] exactly when its call failed
    in one of the three ways the [except] clause of [_request] covers (the
    network call raised, [raise_for_status()] raised, or [json()] raised on
    a non-empty body); the error is chained from that cause [e] and its
    message is "Request failed: " followed by [str(e)]. *)
Theorem RuntimeError_iff_request_failure self op (s : Session W) msg e :
  (call net self op s).1 = inl (RuntimeError msg e) <->
  request_failure (reply net self op s) e
  /\ msg = "Request failed: " ++ exc_str e.
Proof.
  rewrite call_RuntimeError. split.
  - intros H. apply outcome_error in H. destruct H as (e' & Hf & [= -> ->]).
    split; [exact Hf|reflexivity].
  - intros [[Hf|Hf] ->].
    + apply outcome_failure, Hf.
    + apply outcome_decode_failure, Hf.
Qed.

(** X10. An [AttributeError] leaves an operation exactly when the operation
    is one of [get], [delete], [batch_get] and the answer is a success whose
    non-empty body parses to a truthy value that is not an object; [set],
    [info] and [batch_set] never raise it. *)
Theorem AttributeError_iff_truthy_non_object self op (s : Session W) msg :
  (call net self op s).1 = inl (AttributeError msg) <->
  extracts_field op = true
  /\ exists r v,
       reply net self op s = inr r
       /\ success_body r v
       /\ truthy v = true
       /\ is_dict v = false
       /\ msg = "'" ++ type_name v ++ "' object has no attribute 'get'".
Proof.
  assert (Hfwd : forall v0 dflt f,
    outcome (reply net self op s) = inr v0 ->
    (if truthy v0
     then match v0 with
          | PDict d => inr (default dflt (d !! f))
          | _ => inl (AttributeError
                        ("'" ++ type_name v0 ++ "' object has no attribute 'get'"))
          end
     else inr dflt) = (inl (AttributeError msg) : PyExc + pyval) ->
    exists r v,
      reply net self op s = inr r /\ success_body r v /\ truthy v = true
      /\ is_dict v = false
      /\ msg = "'" ++ type_name v ++ "' object has no attribute 'get'").
  { intros v0 dflt f Ho H.
    destruct (reply net self op s) as [e|r] eqn:Hrep; [discriminate Ho|].
    destruct (truthy v0) eqn:Ht; [|discriminate H].
    exists r, v0. split; [reflexivity|].
    split; [exact (outcome_truthy r v0 Ho Ht)|].
    split; [exact Ht|].
    destruct v0; try discriminate H; injection H as <-; split; reflexivity. }
  assert (Hbwd : forall r v dflt f,
    success_body r v -> truthy v = true -> is_dict v = false ->
    match outcome (inr r) with
    | inl err => inl err
    | inr response =>
        if truthy response
        then match response with
             | PDict d => inr (default dflt (d !! f))
             | _ => inl (AttributeError
                           ("'" ++ type_name response
                            ++ "' object has no attribute 'get'"))
             end
        else inr dflt
    end = (inl (AttributeError
                  ("'" ++ type_name v ++ "' object has no attribute 'get'"))
           : PyExc + pyval)).
  { intros r v dflt f Hr Ht Hd. rewrite (outcome_body r v Hr), Ht.
    destruct v; try reflexivity. discriminate Hd. }
  destruct op as [key|key value ttl|key|key|keys|operations]; simpl call;
    cbn [extracts_field].
  - rewrite get_unfold. split.
    + destruct (outcome _) as [err|v0] eqn:Ho.
      * intros [= ->]. exfalso. exact (outcome_not_AttributeError _ _ Ho).
      * intros H. split; [reflexivity|]. exact (Hfwd v0 _ _ eq_refl H).
    + intros (_ & r & v & -> & Hr & Ht & Hd & ->). apply Hbwd; assumption.
  - split; [|intros [H _]; discriminate H].
    unfold mbind, M_bind, bind.
    pose proof (set_unfold self key value ttl s) as H.
    destruct (set net self key value ttl s) as [[err|u] s']; simpl in H |- *;
      [|discriminate].
    intros [= ->]. exfalso.
    destruct (outcome _) as [err'|v] eqn:Ho; [|discriminate H].
    injection H as <-. exact (outcome_not_AttributeError _ _ Ho).
  - rewrite delete_unfold. split.
    + destruct (outcome _) as [err|v0] eqn:Ho.
      * intros [= ->]. exfalso. exact (outcome_not_AttributeError _ _ Ho).
      * intros H. split; [reflexivity|]. exact (Hfwd v0 _ _ eq_refl H).
    + intros (_ & r & v & -> & Hr & Ht & Hd & ->). apply Hbwd; assumption.
  - split; [|intros [H _]; discriminate H].
    rewrite info_unfold. destruct (outcome _) as [err|v0] eqn:Ho.
    + intros [= ->]. exfalso. exact (outcome_not_AttributeError _ _ Ho).
    + destruct (truthy v0); discriminate.
  - rewrite batch_get_unfold. split.
    + destruct (outcome _) as [err|v0] eqn:Ho.
      * intros [= ->]. exfalso. exact (outcome_not_AttributeError _ _ Ho).
      * intros H. split; [reflexivity|]. exact (Hfwd v0 _ _ eq_refl H).
    + intros (_ & r & v & -> & Hr & Ht & Hd & ->). apply Hbwd; assumption.
  - split; [|intros [H _]; discriminate H].
    unfold mbind, M_bind, bind.
    pose proof (batch_set_unfold self operations s) as H.
    destruct (batch_set net self operations s) as [[err|u] s']; simpl in H |- *;
      [|discriminate].
    intros [= ->]. exfalso.
    destruct (outcome _) as [err'|v] eqn:Ho; [|discriminate H].
    injection H as <-. exact (outcome_not_AttributeError _ _ Ho).
Qed.

(** X11. Keys are put into the path as they are: [get] on a key that ends
    with "/info" makes the very call [info] makes on the key without that
    ending, and leaves the same session. *)
Theorem get_on_info_path_is_info_request self key (s : Session W) :
  (get net self (key ++ "/info") s).2 = (info net self key s).2.
Proof.
  pose proof (op_request_sent net self (OpGet (key ++ "/info")) s) as Hg.
  pose proof (op_request_sent net self (OpInfo key) s) as Hi.
  simpl call in Hg, Hi. rewrite Hg, Hi. reflexivity.
Qed.

(** X12. Two different keys never give the same request: the calls of
    [get], of [delete], of [info] and of [set] (with any values and ttls)
    for different keys differ. *)
Theorem distinct_keys_distinct_requests self key1 key2 (s : Session W) :
  key1 <> key2 ->
  sent (get net self key1 s).2 <> sent (get net self key2 s).2
  /\ sent (delete net self key1 s).2 <> sent (delete net self key2 s).2
  /\ sent (info net self key1 s).2 <> sent (info net self key2 s).2
  /\ (forall value1 value2 ttl1 ttl2,
        sent (set net self key1 value1 ttl1 s).2
        <> sent (set net self key2 value2 ttl2 s).2).
Proof.
  intros Hne.
  assert (Hurl : forall op1 op2,
            sent (call net self op1 s).2 = sent (call net self op2 s).2 ->
            op_path op1 = op_path op2).
  { intros op1 op2 H. rewrite !op_request_sent in H. simpl in H.
    apply app_inv_head in H. injection H as _ H _.
    exact (append_inv_l _ _ _ H). }
  split; [|split; [|split]].
  - intros H. apply (Hurl (OpGet key1) (OpGet key2)) in H.
    exact (Hne (append_inv_l _ _ _ H)).
  - intros H. apply (Hurl (OpDelete key1) (OpDelete key2)) in H.
    exact (Hne (append_inv_l _ _ _ H)).
  - intros H. apply (Hurl (OpInfo key1) (OpInfo key2)) in H.
    simpl in H. apply append_inv_l in H.
    exact (Hne (append_inv_r _ _ _ H)).
  - intros value1 value2 ttl1 ttl2 H.
    rewrite <- !call_set_session in H. apply Hurl in H.
    exact (Hne (append_inv_l _ _ _ H)).
Qed.

Lemma call_set_unfold self key value ttl (s : Session W) :
  (call net self (OpSet key value ttl) s).1 =
  match outcome (reply net self (OpSet key value ttl) s) with
  | inl err => inl err
  | inr _ => inr PNone
  end.
Proof.
  pose proof (set_unfold self key value ttl s) as H.
  simpl call. unfold mbind, M_bind, bind.
  destruct (set net self key value ttl s) as [[e|u] s']; simpl in H |- *;
    destruct (outcome _); congruence.
Qed.

Lemma call_batch_set_unfold self operations (s : Session W) :
  (call net self (OpBatchSet operations) s).1 =
  match outcome (reply net self (OpBatchSet operations) s) with
  | inl err => inl err
  | inr _ => inr PNone
  end.
Proof.
  pose proof (batch_set_unfold self operations s) as H.
  simpl call. unfold mbind, M_bind, bind.
  destruct (batch_set net self operations s) as [[e|u] s']; simpl in H |- *;
    destruct (outcome _); congruence.
Qed.

End OperationFacts.

(** X13. What an operation returns or raises depends on nothing but the
    answer to its one call: run on any two transports, worlds, logs and
    clients, an operation gives the same result whenever its call gets the
    same answer.  Nothing of an earlier call is kept. *)
Theorem result_depends_only_on_reply {W1 W2}
    (net1 : Request -> W1 -> (RequestException + Response) * W1)
    (net2 : Request -> W2 -> (RequestException + Response) * W2)
    self1 self2 op (s1 : Session W1) (s2 : Session W2) :
  reply net1 self1 op s1 = reply net2 self2 op s2 ->
  (call net1 self1 op s1).1 = (call net2 self2 op s2).1.
Proof.
  intros H.
  destruct op as [key|key value ttl|key|key|keys|operations].
  - simpl call. rewrite !get_unfold, H. reflexivity.
  - rewrite !call_set_unfold, H. reflexivity.
  - simpl call. rewrite !delete_unfold, H. reflexivity.
  - simpl call. rewrite !info_unfold, H. reflexivity.
  - simpl call. rewrite !batch_get_unfold, H. reflexivity.
  - rewrite !call_batch_set_unfold, H. reflexivity.
Qed.

(** ** The further theorems at concrete inputs *)

Lemma result_depends_only_on_reply_witness :
  let r := mock_response "{...}" (PDict {[ "value" := PStr "v" ]}) in
  let other : StringClient := {| client := DbxClient_init "https://dbx.example/" (Some 5%Z) None |} in
  let s2 := {| world := ({[ "https://dbx.example/redis/string/k" := PStr "v" ]} : gmap string pyval);
               sent := [op_request other (OpDelete "x")] |} in
  reply (mock_request (inr r)) test_string_client (OpGet "k") (fresh tt)
  = reply store_server other (OpGet "k") s2
  /\ (call (mock_request (inr r)) test_string_client (OpGet "k") (fresh tt)).1
     = (call store_server other (OpGet "k") s2).1.
Proof.
  intros r other s2.
  assert (H : reply (mock_request (inr r)) test_string_client (OpGet "k") (fresh tt)
              = reply store_server other (OpGet "k") s2) by reflexivity.
  split; [exact H|].
  exact (result_depends_only_on_reply _ _ _ _ (OpGet "k") _ _ H).
Defined.

Lemma decode_failure_raises_one_error_witness :
  let net := mock_request (inr undecodable_response) in
  let op := OpBatchSet [ {[ "key" := PStr "key1"; "value" := PStr "val1" ]} ] in
  decode_failure (reply net test_string_client op (fresh tt)) decode_error
  /\ (call net test_string_client op (fresh tt)).1
     = inl (RuntimeError "Request failed: Expecting value" decode_error)
  /\ sent (call net test_string_client op (fresh tt)).2
     = [op_request test_string_client op].
Proof.
  intros net op.
  assert (H : decode_failure (reply net test_string_client op (fresh tt)) decode_error).
  { exists undecodable_response. repeat split; reflexivity. }
  split; [exact H|].
  exact (decode_failure_raises_one_error net test_string_client op (fresh tt)
           decode_error H).
Defined.

Lemma object_body_extraction_witness :
  let d : gmap string pyval :=
    {[ "value" := PInt 7; "deleted" := PStr "yes"; "values" := PNone ]} in
  let r := mock_response "1" (PDict d) in
  let net := mock_request (inr r) in
  success_body r (PDict d)
  /\ (get net test_string_client "testkey" (fresh tt)).1 = inr (PInt 7)
  /\ (delete net test_string_client "testkey" (fresh tt)).1 = inr (PStr "yes")
  /\ (batch_get net test_string_client ["key1"] (fresh tt)).1 = inr PNone.
Proof.
  intros d r net.
  assert (Hr : success_body r (PDict d)) by (repeat split; reflexivity).
  destruct (object_body_extraction net test_string_client (fresh tt) r d Hr)
    as (Hget & Hdelete & Hbatch).
  split; [exact Hr|].
  split; [exact (Hget "testkey" eq_refl)|].
  split; [exact (Hdelete "testkey" eq_refl)|].
  exact (Hbatch ["key1"] eq_refl).
Defined.

Lemma info_returns_body_witness :
  let v := PList [PStr "string"; PInt 3600] in
  let r := mock_response "1" v in
  let net := mock_request (inr r) in
  reply net test_string_client (OpInfo "testkey") (fresh tt) = inr r
  /\ success_body r v
  /\ truthy v = true
  /\ (info net test_string_client "testkey" (fresh tt)).1 = inr v.
Proof.
  intros v r net.
  assert (Hr : success_body r v) by (repeat split; reflexivity).
  split; [reflexivity|]. split; [exact Hr|]. split; [reflexivity|].
  exact (info_returns_body net test_string_client "testkey" (fresh tt) r v
           eq_refl Hr eq_refl).
Defined.

Lemma set_and_batch_set_ignore_body_witness :
  let r := mock_response "1" (PList [PStr "unexpected"]) in
  let net := mock_request (inr r) in
  accepted r
  /\ (set net test_string_client "testkey" "testvalue" (Some 3600%Z) (fresh tt)).1
     = inr tt
  /\ (batch_set net test_string_client [ {[ "key" := PStr "key1" ]} ] (fresh tt)).1
     = inr tt.
Proof.
  intros r net.
  assert (Hr : accepted r).
  { split; [reflexivity|]. intros _. eexists. reflexivity. }
  destruct (set_and_batch_set_ignore_body net test_string_client (fresh tt) r Hr)
    as [Hset Hbatch].
  split; [exact Hr|].
  split; [exact (Hset "testkey" "testvalue" (Some 3600%Z) eq_refl)|].
  exact (Hbatch [ {[ "key" := PStr "key1" ]} ] eq_refl).
Defined.

Lemma RuntimeError_iff_request_failure_witness :
  let net := mock_request (inr response_500) in
  request_failure (reply net test_string_client (OpInfo "testkey") (fresh tt))
    server_error
  /\ (call net test_string_client (OpInfo "testkey") (fresh tt)).1
     = inl (RuntimeError "Request failed: 500 Server Error" server_error).
Proof.
  intros net.
  assert (H : request_failure
                (reply net test_string_client (OpInfo "testkey") (fresh tt))
                server_error).
  { left. constructor. reflexivity. }
  split; [exact H|].
  exact (proj2 (RuntimeError_iff_request_failure net test_string_client
                  (OpInfo "testkey") (fresh tt)
                  "Request failed: 500 Server Error" server_error)
           (conj H eq_refl)).
Defined.

Lemma AttributeError_iff_truthy_non_object_witness :
  (call (mock_request (inr (mock_response "1" (PInt 1)))) test_string_client
     (OpDelete "testkey") (fresh tt)).1
  = inl (AttributeError "'int' object has no attribute 'get'").
Proof.
  apply (proj2 (AttributeError_iff_truthy_non_object
                  (mock_request (inr (mock_response "1" (PInt 1))))
                  test_string_client (OpDelete "testkey") (fresh tt)
                  "'int' object has no attribute 'get'")).
  split; [reflexivity|].
  exists (mock_response "1" (PInt 1)), (PInt 1).
  repeat split; reflexivity.
Defined.

Lemma distinct_keys_distinct_requests_witness :
  "key1" <> "key2"
  /\ sent (get (mock_request (inr (mock_response "" PNone))) test_string_client
             "key1" (fresh tt)).2
     <> sent (get (mock_request (inr (mock_response "" PNone))) test_string_client
                "key2" (fresh tt)).2.
Proof.
  assert (H : "key1" <> "key2") by discriminate.
  split; [exact H|].
  exact (proj1 (distinct_keys_distinct_requests
                  (mock_request (inr (mock_response "" PNone)))
                  test_string_client "key1" "key2" (fresh tt) H)).
Defined.

(** ** The scenarios of tests/test_string_client.py *)

Module Tests.

Example test_get :
  let '(result, s) :=
    get (mock_request (inr (mock_response "1" (PDict {[ "value" := PStr "testvalue" ]}))))
        test_string_client "testkey" (fresh tt) in
  result = inr (PStr "testvalue")
  /\ sent s = called_once_with "GET" "http://localhost:8080/redis/string/testkey" None.
Proof. vm_compute. split; reflexivity. Qed.

Example test_set :
  let '(result, s) :=
    set (mock_request (inr (mock_response "" PNone)))
        test_string_client "testkey" "testvalue" (Some 3600%Z) (fresh tt) in
  result = inr tt
  /\ sent s = called_once_with "POST" "http://localhost:8080/redis/string/testkey"
                (Some (PDict {[ "value" := PStr "testvalue"; "ttl" := PInt 3600 ]})).
Proof. vm_compute. split; reflexivity. Qed.

Example test_delete :
  let '(result, s) :=
    delete (mock_request (inr (mock_response "1" (PDict {[ "deleted" := PBool true ]}))))
        test_string_client "testkey" (fresh tt) in
  result = inr (PBool true)
  /\ sent s = called_once_with "DELETE" "http://localhost:8080/redis/string/testkey" None.
Proof. vm_compute. split; reflexivity. Qed.

Example test_info :
  let body := PDict {[ "ttl" := PInt 3600; "type" := PStr "string" ]} in
  let '(result, s) :=
    info (mock_request (inr (mock_response "1" body))) test_string_client "testkey" (fresh tt) in
  result = inr body
  /\ sent s = called_once_with "GET" "http://localhost:8080/redis/string/testkey/info" None.
Proof. vm_compute. split; reflexivity. Qed.

Example test_batch_get :
  let '(result, s) :=
    batch_get (mock_request (inr (mock_response "1"
                 (PDict {[ "values" := PList [PStr "val1"; PStr "val2"; PNone] ]}))))
        test_string_client ["key1"; "key2"; "key3"] (fresh tt) in
  result = inr (PList [PStr "val1"; PStr "val2"; PNone])
  /\ sent s = called_once_with "POST" "http://localhost:8080/redis/string/batch_get"
                (Some (PDict {[ "keys" := PList [PStr "key1"; PStr "key2"; PStr "key3"] ]})).
Proof. vm_compute. split; reflexivity. Qed.

Example test_batch_set :
  let operations : list (gmap string pyval) :=
    [ {[ "key" := PStr "key1"; "value" := PStr "val1" ]};
      {[ "key" := PStr "key2"; "value" := PStr "val2"; "ttl" := PInt 3600 ]} ] in
  let '(result, s) :=
    batch_set (mock_request (inr (mock_response "" PNone)))
        test_string_client operations (fresh tt) in
  result = inr tt
  /\ sent s = called_once_with "POST" "http://localhost:8080/redis/string/batch_set"
                (Some (PDict {[ "operations" := PList (PDict <$> operations) ]})).
Proof. vm_compute. split; reflexivity. Qed.

End Tests.
